(** * vscode-xml: the language-client bootstrap ([src/client/xmlClient.ts])

    A shallow embedding of the handlers that [startLanguageClient] and
    [setupActionableNotificationListener] register, over an explicit model
    of the editor host (command registry, prompts, configuration store,
    active editor, context keys) and of the objects the handlers mutate. *)

From Stdlib Require Import ZArith.
From stdpp Require Import base option list functions gmap strings.

Set Warnings "-register-all".

Open Scope string_scope.
Open Scope Z_scope.
Open Scope list_scope.

(** ** JavaScript values *)

(** Values that cross the protocol or are read from the host.  Editor
    options, configuration values and command arguments are [any] in the
    source. *)
Inductive JSValue : Type :=
| JUndefined
| JNull
| JBool (b : bool)
| JNumber (n : Z)
| JString (s : string)
| JArray (items : list JSValue)
| JObject (fields : list (string * JSValue)).

(** References to mutable objects of the JavaScript heap. *)
Definition loc : Type := positive.

(** ** Results of a handler: normal completion or a thrown error *)

Inductive JSError : Type :=
| TypeError (what : string)
| UriError (value : string)
| Rejected (what : string).

Inductive Result (A : Type) : Type :=
| Ok (a : A)
| Throw (e : JSError).
Arguments Ok {A} a.
Arguments Throw {A} e.

Definition is_Ok {A} (r : Result A) : bool :=
  match r with Ok _ => true | Throw _ => false end.

(** ** Enumerations of vscode-languageclient *)

(** [State]: the life-cycle states a client reports through
    [onDidChangeState], with their numeric codes. *)
Inductive State : Type := Stopped | Starting | Running.

Definition State_code (s : State) : Z :=
  match s with
  | Stopped => 1
  | Starting => 3
  | Running => 2
  end.

Record StateChangeEvent : Type := {
  oldState : State;
  newState : State
}.

(** [MessageType]: the severities of the protocol, as numbers. *)
Module MessageType.
Definition Error : Z := 1.
Definition Warning : Z := 2.
Definition Info : Z := 3.
Definition Log : Z := 4.
End MessageType.

(** [Command] of the protocol: [arguments] is optional. *)
Record Command : Type := {
  title : string;
  command : string;
  arguments : option (list JSValue)
}.

(** [interface ActionableMessage]: [data] and [commands] are optional. *)
Record ActionableMessage : Type := {
  severity : Z;
  message : string;
  data : option JSValue;
  commands : option (list Command)
}.

(** [ExecuteCommandParams] of the protocol: [arguments] is optional. *)
Record ExecuteCommandParams : Type := {
  params_command : string;
  params_arguments : option (list JSValue)
}.

(** [ConfigurationItem] of the configuration-pull request.  The handler
    passes both fields on as strings. *)
Record ConfigurationItem : Type := {
  scopeUri : string;
  section : string
}.

(** [TelemetryEvent]: [properties], when the event has them, is a
    reference to a mutable object. *)
Record TelemetryEvent : Type := {
  name : string;
  properties : option loc
}.

(** The three prompt functions of [window]. *)
Inductive ShowFn : Type :=
| showInformationMessage
| showWarningMessage
| showErrorMessage.

(** What [context.subscriptions] receives. *)
Inductive Disposable : Type :=
| JDKChangeConfigurationSubscription
| TagClosingSubscription
| ExtensionsDidChangeSubscription
| DidChangeActiveTextEditorSubscription
| DidGrantWorkspaceTrustSubscription.

#[global] Instance Disposable_eq_dec : EqDecision Disposable.
Proof. solve_decision. Defined.

#[global] Instance ShowFn_eq_dec : EqDecision ShowFn.
Proof. solve_decision. Defined.

#[global] Instance State_eq_dec : EqDecision State.
Proof. solve_decision. Defined.

(** ** The editor host *)

(** [Uri] of the host API: only [Uri.parse] and [toString] are used.
    [Uri.parse] validates its argument: [None] stands for the error it
    throws on a string it rejects. *)
Class UriApi : Type := {
  Uri : Type;
  Uri_eq_dec :: EqDecision Uri;
  Uri_parse : string → option Uri;
  Uri_toString : Uri → string
}.

(** Types of the sibling modules that this file only passes around. *)
Class Payloads : Type := {
  Settings : Type;               (* what [getXMLSettings] returns *)
  ExternalXmlSettings : Type;    (* [settings/externalXmlSettings] *)
  Executable : Type              (* [Executable] of vscode-languageclient *)
}.

Section Host.
Context `{UriApi} `{Payloads}.

Record TextDocument : Type := { uri : Uri }.

Record TextEditorOptions : Type := {
  insertSpaces : JSValue;
  tabSize : JSValue
}.

Record TextEditor : Type := {
  document : TextDocument;
  options : TextEditorOptions
}.

(** Calls that leave the component, in the order they are made.  A
    telemetry send carries the properties reference, if any, together with
    what the object holds when the sink is called. *)
Inductive HostCall : Type :=
| commands_executeCommand (cmd : string) (args : list JSValue)
| window_show (show : ShowFn) (msg : string) (items : list string)
| Telemetry_sendTelemetry (evt : string) (props : option (loc * gmap string JSValue))
| sendNotification_DidChangeConfiguration (settings : Settings)
| call_onConfigurationChange
| call_onExtensionChange
| call_registerClientServerCommands.

Record Host : Type := {
  (* [window.activeTextEditor] *)
  activeTextEditor : option TextEditor;
  (* configuration values by full dotted key: those that apply everywhere
     ([None]) and those a resource overrides them with ([Some uri]) *)
  configuration : option Uri → gmap string JSValue;
  (* context keys set through the [setContext] command *)
  contextKeys : gmap string JSValue;
  (* the JavaScript heap: the object each reference denotes *)
  objects : loc → gmap string JSValue;
  (* whether [languageClient.start()] resolves *)
  serverStarts : bool;
  (* the state transitions the client reports while it starts *)
  startReports : list StateChangeEvent;
  (* optional host APIs *)
  has_extensions_onDidChange : bool;
  has_onDidGrantWorkspaceTrust : bool;
  (* [context.subscriptions] *)
  subscriptions : list Disposable;
  (* calls made so far, oldest first *)
  calls : list HostCall
}.

Definition set_contextKeys (f : gmap string JSValue → gmap string JSValue) (h : Host) : Host :=
  {| activeTextEditor := activeTextEditor h; configuration := configuration h;
     contextKeys := f (contextKeys h); objects := objects h;
     serverStarts := serverStarts h; startReports := startReports h;
     has_extensions_onDidChange := has_extensions_onDidChange h;
     has_onDidGrantWorkspaceTrust := has_onDidGrantWorkspaceTrust h;
     subscriptions := subscriptions h; calls := calls h |}.

Definition set_configuration (f : (option Uri → gmap string JSValue) → option Uri → gmap string JSValue) (h : Host) : Host :=
  {| activeTextEditor := activeTextEditor h; configuration := f (configuration h);
     contextKeys := contextKeys h; objects := objects h;
     serverStarts := serverStarts h; startReports := startReports h;
     has_extensions_onDidChange := has_extensions_onDidChange h;
     has_onDidGrantWorkspaceTrust := has_onDidGrantWorkspaceTrust h;
     subscriptions := subscriptions h; calls := calls h |}.

Definition set_objects (f : (loc → gmap string JSValue) → loc → gmap string JSValue) (h : Host) : Host :=
  {| activeTextEditor := activeTextEditor h; configuration := configuration h;
     contextKeys := contextKeys h; objects := f (objects h);
     serverStarts := serverStarts h; startReports := startReports h;
     has_extensions_onDidChange := has_extensions_onDidChange h;
     has_onDidGrantWorkspaceTrust := has_onDidGrantWorkspaceTrust h;
     subscriptions := subscriptions h; calls := calls h |}.

Definition set_subscriptions (f : list Disposable → list Disposable) (h : Host) : Host :=
  {| activeTextEditor := activeTextEditor h; configuration := configuration h;
     contextKeys := contextKeys h; objects := objects h;
     serverStarts := serverStarts h; startReports := startReports h;
     has_extensions_onDidChange := has_extensions_onDidChange h;
     has_onDidGrantWorkspaceTrust := has_onDidGrantWorkspaceTrust h;
     subscriptions := f (subscriptions h); calls := calls h |}.

Definition set_calls (f : list HostCall → list HostCall) (h : Host) : Host :=
  {| activeTextEditor := activeTextEditor h; configuration := configuration h;
     contextKeys := contextKeys h; objects := objects h;
     serverStarts := serverStarts h; startReports := startReports h;
     has_extensions_onDidChange := has_extensions_onDidChange h;
     has_onDidGrantWorkspaceTrust := has_onDidGrantWorkspaceTrust h;
     subscriptions := subscriptions h; calls := f (calls h) |}.

(** *** The handler monad: host state plus thrown errors *)

Definition M (A : Type) : Type := Host → Result (A * Host).

#[global] Instance M_ret : MRet M := λ A a h, Ok (a, h).

#[global] Instance M_bind : MBind M := λ A B f m h,
  match m h with
  | Ok (a, h') => f a h'
  | Throw e => Throw e
  end.

Definition throw {A} (e : JSError) : M A := λ _, Throw e.
Definition gets {A} (f : Host → A) : M A := λ h, Ok (f h, h).
Definition modify (f : Host → Host) : M unit := λ h, Ok (tt, f h).
Definition record_call (c : HostCall) : M unit := modify (set_calls (λ cs, cs ++ [c])).

(** A promise that resolves, or is rejected and rejects who awaits it. *)
Definition settle (resolves : bool) (what : string) : M unit :=
  λ h, if resolves then Ok (tt, h) else Throw (Rejected what).

(** [Uri.parse(value)], which throws on a string it rejects. *)
Definition parseUri (value : string) : M Uri :=
  λ h, match Uri_parse value with
       | Some parsed => Ok (parsed, h)
       | None => Throw (UriError value)
       end.

(** What a properties reference shows to who receives it now. *)
Definition seenProperties (h : Host) (props : option loc)
  : option (loc * gmap string JSValue) :=
  (λ l, (l, objects h l)) <$> props.

(** *** Host operations *)

(** [commands.executeCommand(cmd, ...args)].  The host's built-in
    [setContext] command stores a context key; any other command is
    only recorded. *)
Definition executeCommand (cmd : string) (args : list JSValue) : M unit :=
  record_call (commands_executeCommand cmd args);;
  match args with
  | [JString key; value] =>
      if decide (cmd = "setContext")
      then modify (set_contextKeys (<[key := value]>))
      else mret tt
  | _ => mret tt
  end.

(** [workspace.getConfiguration(section, scope)]: a view on the store. *)
Record WorkspaceConfiguration : Type := {
  wc_section : option string;
  wc_scope : option Uri
}.

Definition workspace_getConfiguration (sect : option string) (scope : option Uri)
  : WorkspaceConfiguration :=
  {| wc_section := sect; wc_scope := scope |}.

Definition full_key (wc : WorkspaceConfiguration) (key : string) : string :=
  match wc_section wc with
  | Some s => s +:+ "." +:+ key
  | None => key
  end.

(** [cfg.get(key)]: the effective value for the scope of the view, which
    is the resource's own value if it overrides the key and the value that
    applies everywhere otherwise; [undefined] when there is none. *)
Definition WorkspaceConfiguration_get (h : Host) (wc : WorkspaceConfiguration)
    (key : string) : JSValue :=
  match wc_scope wc with
  | Some resource =>
      match configuration h (Some resource) !! full_key wc key with
      | Some value => value
      | None => default JUndefined (configuration h None !! full_key wc key)
      end
  | None => default JUndefined (configuration h None !! full_key wc key)
  end.

(** [cfg.update(key, value)]: the value is written at the scope of the
    view; written without a scope, it is what every resource that does not
    override the key reads from then on. *)
Definition WorkspaceConfiguration_update (wc : WorkspaceConfiguration)
    (key : string) (value : JSValue) : M unit :=
  modify (set_configuration (λ cfg,
    <[wc_scope wc := <[full_key wc key := value]> (cfg (wc_scope wc))]> cfg)).

(** [obj[key] = value] on the object a reference denotes. *)
Definition set_property (l : loc) (key : string) (value : JSValue) : M unit :=
  modify (set_objects (λ objs, <[l := <[key := value]> (objs l)]> objs)).

(** [if (api) { ... }] around the subscription to an optional host API. *)
Definition when_available (api : bool) (m : M unit) : M unit :=
  if api then m else mret tt.

(** The host's event loop calls a registered handler once per event, each
    call on the host as the previous one left it.  (A run ends at the
    first call that throws; it is used with handlers that do not.) *)
Fixpoint handleAll {A : Type} (handler : A → M unit) (events : list A) : M unit :=
  match events with
  | [] => mret tt
  | e :: rest => handler e;; handleAll handler rest
  end.

Definition push_subscription (d : Disposable) : M unit :=
  modify (set_subscriptions (λ ds, ds ++ [d])).

End Host.

(** ** What the sibling modules provide *)

(** The configuration object [getXMLConfiguration()] returns: indexed as
    [cfg['server']['preferBinary']] and read through [cfg.get(key)]. *)
Record ServerConfiguration : Type := {
  preferBinary : JSValue
}.

Record XMLConfiguration : Type := {
  server : ServerConfiguration;
  get : string → JSValue
}.

(** [RequirementsData] of [server/requirements]. *)
Record RequirementsData : Type := {
  java_home : string
}.

(** Constants and functions imported from [../telemetry],
    [../settings/settings], [../settings/variableSubstitution] and
    [./languageParticipants]. *)
Class Imports `{UriApi} `{Payloads} : Type := {
  SERVER_INITIALIZED_EVT : string;
  STARTUP_EVT : string;
  SETTINGS_EVT : string;
  getXMLConfiguration : Host → XMLConfiguration;
  getXMLSettings : Host → string → string → ExternalXmlSettings → Settings;
  containsVariableReferenceToCurrentFile : JSValue → bool;
  XML_SUPPORTED_LANGUAGE_IDS : list JSValue
}.

(** ** The client *)

Section Client.
Context `{Imports}.

(** The arguments of [startLanguageClient] that its handlers close over. *)
Record ClientArgs : Type := {
  executable : Executable;
  logfile : string;
  externalXmlSettings : ExternalXmlSettings;
  requirementsData : RequirementsData
}.

Definition freshSettings (args : ClientArgs) : M Settings :=
  gets (λ h, getXMLSettings h (java_home (requirementsData args)) (logfile args)
               (externalXmlSettings args)).

(** *** [languageClient.onDidChangeState] (lines 41-44) *)

Definition onDidChangeState (e : StateChangeEvent) : M unit :=
  executeCommand "setContext"
    [JString "XMLLSReady"; JBool (State_code (newState e) =? State_code Running)].

(** *** [languageClient.onTelemetry] (lines 46-55) *)

(** [Telemetry.sendTelemetry(evt, props)]: the sink is handed the
    reference and finds the object as it is at that moment. *)
Definition sendTelemetry (evt : string) (props : option loc) : M unit :=
  λ h, record_call (Telemetry_sendTelemetry evt (seenProperties h props)) h.

(** The assignment [e.properties[SETTINGS_EVT] = ...] needs an object. *)
Definition onTelemetry (e : TelemetryEvent) : M unit :=
  if decide (name e = SERVER_INITIALIZED_EVT) then
    match properties e with
    | Some props =>
        cfg ← gets getXMLConfiguration;
        set_property props SETTINGS_EVT
          (JObject [("preferBinary", preferBinary (server cfg))]);;
        sendTelemetry STARTUP_EVT (Some props)
    | None => throw (TypeError "e.properties is undefined")
    end
  else
    sendTelemetry (name e) (properties e).

(** *** [xml/executeClientCommand] (lines 67-69) *)

(** The spread [...params.arguments] needs an array. *)
Definition onExecuteClientCommand (params : ExecuteCommandParams) : M unit :=
  match params_arguments params with
  | Some args => executeCommand (params_command params) args
  | None => throw (TypeError "params.arguments is not iterable")
  end.

(** *** The configuration-pull request (lines 89-104) *)

(** [workspace.getConfiguration(null, Uri.parse(item.scopeUri))
      .get(item.section)] *)
Definition scopedConfiguration (item : ConfigurationItem) : M JSValue :=
  resource ← parseUri (scopeUri item);
  gets (λ h, WorkspaceConfiguration_get h
               (workspace_getConfiguration None (Some resource)) (section item)).

(** The branch taken for the active document: one of the two editor
    options is pushed, or nothing. *)
Definition editorOption (editor : TextEditor) (result : list JSValue)
    (item : ConfigurationItem) : list JSValue :=
  if decide (section item = "xml.format.insertSpaces") then
    result ++ [insertSpaces (options editor)]
  else if decide (section item = "xml.format.tabSize") then
    result ++ [tabSize (options editor)]
  else
    result.

(** One iteration of the loop over [params.items]; [result.push] appends.
    With an active editor the condition parses the scope URI; the [else]
    branch parses it (again). *)
Definition configurationStep (activeEditor : option TextEditor)
    (result : list JSValue) (item : ConfigurationItem) : M (list JSValue) :=
  match activeEditor with
  | Some editor =>
      scope ← parseUri (scopeUri item);
      if bool_decide (Uri_toString (uri (document editor)) = Uri_toString scope) then
        (mret (editorOption editor result item) : M (list JSValue))
      else
        value ← scopedConfiguration item;
        mret (result ++ [value])
  | None =>
      value ← scopedConfiguration item;
      mret (result ++ [value])
  end.

Fixpoint configurationLoop (activeEditor : option TextEditor)
    (items : list ConfigurationItem) (result : list JSValue) : M (list JSValue) :=
  match items with
  | [] => mret result
  | item :: rest =>
      result' ← configurationStep activeEditor result item;
      configurationLoop activeEditor rest result'
  end.

Definition onConfigurationRequest (items : list ConfigurationItem) : M (list JSValue) :=
  activeEditor ← gets activeTextEditor;
  configurationLoop activeEditor items [].

(** *** [window.onDidChangeActiveTextEditor] (lines 108-113) *)

Definition onDidChangeActiveTextEditor (args : ClientArgs) : M unit :=
  cfg ← gets getXMLConfiguration;
  if containsVariableReferenceToCurrentFile (get cfg "fileAssociations") then
    settings ← freshSettings args;
    record_call (sendNotification_DidChangeConfiguration settings);;
    record_call call_onConfigurationChange
  else
    mret tt.

(** *** [workspace.onDidGrantWorkspaceTrust] (lines 115-121) *)

Definition onDidGrantWorkspaceTrust (args : ClientArgs) : M unit :=
  settings ← freshSettings args;
  record_call (sendNotification_DidChangeConfiguration settings);;
  WorkspaceConfiguration_update (workspace_getConfiguration (Some "xml") None)
    "downloadExternalResources.enabled" (JBool true).

(** *** [extensions.onDidChange] (lines 81-85) *)

Definition onExtensionsDidChange : M unit :=
  record_call call_onExtensionChange.

(** *** [setupActionableNotificationListener] (lines 170-197) *)

(** The [switch] on [notification.severity]; [None] is [show = null]. *)
Definition selectShow (sev : Z) : option ShowFn :=
  if sev =? MessageType.Info then Some showInformationMessage
  else if sev =? MessageType.Warning then Some showWarningMessage
  else if sev =? MessageType.Error then Some showErrorMessage
  else None.

(** The notification handler up to the call of [show]. *)
Definition onActionableNotification (notification : ActionableMessage) : M unit :=
  match selectShow (severity notification) with
  | None => mret tt
  | Some show =>
      match commands notification with
      | None => throw (TypeError "notification.commands is undefined")
      | Some actions =>
          let titles := map title actions in
          record_call (window_show show (message notification) titles)
      end
  end.

(** The [for] loop of the [then] callback: the first action whose title
    is the selection is executed and the loop is left. *)
Fixpoint runSelected (actions : list Command) (selection : option string) : M unit :=
  match actions with
  | [] => mret tt
  | action :: rest =>
      if decide (Some (title action) = selection) then
        let args := match arguments action with
                    | Some a => a
                    | None => []
                    end in
        executeCommand (command action) args
      else
        runSelected rest selection
  end.

(** The [then] callback, run when the host resolves the prompt with the
    selected title, or with [undefined] on dismissal. *)
Definition onPromptResolved (notification : ActionableMessage) (selection : option string)
  : M unit :=
  match commands notification with
  | None => throw (TypeError "notification.commands is not iterable")
  | Some actions => runSelected actions selection
  end.

(** *** [getLanguageClientOptions] (lines 126-168) *)

Inductive RevealOutputChannelOn : Type :=
| RevealOnInfo | RevealOnWarn | RevealOnError | RevealNever.

Record ExtendedClientCapabilities : Type := {
  codeLensKind_valueSet : list string;
  actionableNotificationSupport : bool;
  openSettingsCommandSupport : bool;
  bindingWizardSupport : bool
}.

Record InitializationOptions : Type := {
  init_settings : Settings;
  extendedClientCapabilities : ExtendedClientCapabilities
}.

(** [new ClientErrorHandler(name, context)] of [./clientErrorHandler]. *)
Record ClientErrorHandler : Type := {
  handler_name : string
}.

Record LanguageClientOptions : Type := {
  documentSelector : list JSValue;
  revealOutputChannelOn : RevealOutputChannelOn;
  initializationOptions : InitializationOptions;
  errorHandler : ClientErrorHandler;
  synchronize_configurationSection : list string;
  middleware_workspace_didChangeConfiguration : M unit
}.

(** The middleware of lines 160-164. *)
Definition didChangeConfiguration (args : ClientArgs) : M unit :=
  settings ← freshSettings args;
  record_call (sendNotification_DidChangeConfiguration settings);;
  record_call call_onConfigurationChange.

Definition getLanguageClientOptions (h : Host) (args : ClientArgs) : LanguageClientOptions :=
  {| documentSelector := XML_SUPPORTED_LANGUAGE_IDS;
     revealOutputChannelOn := RevealNever;
     initializationOptions :=
       {| init_settings := getXMLSettings h (java_home (requirementsData args))
                             (logfile args) (externalXmlSettings args);
          extendedClientCapabilities :=
            {| codeLensKind_valueSet := ["references"; "association"; "open.uri"];
               actionableNotificationSupport := true;
               openSettingsCommandSupport := true;
               bindingWizardSupport := true |} |};
     errorHandler := {| handler_name := "XML" |};
     synchronize_configurationSection :=
       ["xml"; "[xml]"; "files.trimFinalNewlines"; "files.trimTrailingWhitespace";
        "files.insertFinalNewline"; "editor.linkedEditing"];
     middleware_workspace_didChangeConfiguration := didChangeConfiguration args |}.

(** *** [startLanguageClient] (lines 36-124) *)

(** [new LanguageClient('xml', 'XML Support', executable, options)] *)
Record LanguageClient : Type := {
  client_id : string;
  client_name : string;
  serverOptions : Executable;
  clientOptions : LanguageClientOptions
}.

Definition newLanguageClient (h : Host) (args : ClientArgs) : LanguageClient :=
  {| client_id := "xml"; client_name := "XML Support";
     serverOptions := executable args;
     clientOptions := getLanguageClientOptions h args |}.

(** [await languageClient.start()].  The state handler is registered
    before the start (lines 41-44), so the transitions the client reports
    while it starts go through [onDidChangeState]; a failed start rejects
    the caller. *)
Definition languageClient_start : M unit :=
  reports ← gets startReports;
  handleAll onDidChangeState reports;;
  starts ← gets serverStarts;
  settle starts "languageClient.start()".

(** The protocol handlers ([onDidChangeState], [onTelemetry], [onRequest],
    [onNotification]) are the definitions above.  The function builds the
    client on the host as it finds it, awaits the start, makes its
    subscriptions and returns the client. *)
Definition startLanguageClient (args : ClientArgs) : M LanguageClient :=
  languageClient ← gets (λ h, newLanguageClient h args);
  languageClient_start;;
  push_subscription JDKChangeConfigurationSubscription;;
  record_call call_registerClientServerCommands;;
  push_subscription TagClosingSubscription;;
  ext ← gets has_extensions_onDidChange;
  when_available ext (push_subscription ExtensionsDidChangeSubscription);;
  push_subscription DidChangeActiveTextEditorSubscription;;
  trust ← gets has_onDidGrantWorkspaceTrust;
  when_available trust (push_subscription DidGrantWorkspaceTrustSubscription);;
  mret languageClient.

(** *** The configuration-pull response as the specification words it *)

(** Whether [Uri.parse] accepts the scope URI of an item. *)
Definition parses (item : ConfigurationItem) : bool :=
  match Uri_parse (scopeUri item) with
  | Some _ => true
  | None => false
  end.

(** The scope URI of the first item that [Uri.parse] rejects, if any. *)
Fixpoint firstRejected (items : list ConfigurationItem) : option string :=
  match items with
  | [] => None
  | item :: rest =>
      if parses item then firstRejected rest else Some (scopeUri item)
  end.

(** [activeEditor && activeEditor.document.uri.toString() ===
    Uri.parse(item.scopeUri).toString()], for a scope URI that parses. *)
Definition isActiveDocument (activeEditor : option TextEditor) (item : ConfigurationItem)
  : bool :=
  match activeEditor, Uri_parse (scopeUri item) with
  | Some editor, Some scope =>
      bool_decide (Uri_toString (uri (document editor)) = Uri_toString scope)
  | _, _ => false
  end.

(** [scoped h item]: the global configuration value for the section of
    the item, scoped to its URI (no value is due when the URI does not
    parse: the request fails). *)
Definition scoped (h : Host) (item : ConfigurationItem) : JSValue :=
  match Uri_parse (scopeUri item) with
  | Some resource =>
      WorkspaceConfiguration_get h
        (workspace_getConfiguration None (Some resource)) (section item)
  | None => JUndefined
  end.

(** The entry the specification gives for one item: the active editor's
    option for the two formatting sections of the active document, the
    scoped global value for everything else. *)
Definition configurationEntry_spec (h : Host) (item : ConfigurationItem) : JSValue :=
  match activeTextEditor h with
  | Some editor =>
      if isActiveDocument (Some editor) item
         && bool_decide (section item = "xml.format.insertSpaces")
      then insertSpaces (options editor)
      else if isActiveDocument (Some editor) item
              && bool_decide (section item = "xml.format.tabSize")
      then tabSize (options editor)
      else scoped h item
  | None => scoped h item
  end.

(** The items for which the loop body pushes nothing: the active document
    asked for a section other than the two formatting ones. *)
Definition unanswered (h : Host) (item : ConfigurationItem) : bool :=
  isActiveDocument (activeTextEditor h) item
  && negb (bool_decide (section item = "xml.format.insertSpaces"))
  && negb (bool_decide (section item = "xml.format.tabSize")).

(** What one item contributes to the response when its URI parses. *)
Definition answer (h : Host) (item : ConfigurationItem) : list JSValue :=
  if unanswered h item then [] else [configurationEntry_spec h item].

(** *** Abbreviations used in the statements *)

(** The settings object the handler builds from the local preference. *)
Definition settingsProperty (h : Host) : JSValue :=
  JObject [("preferBinary", preferBinary (server (getXMLConfiguration h)))].

(** The notification that carries settings computed on the host [h]. *)
Definition settingsPush (args : ClientArgs) (h : Host) : HostCall :=
  sendNotification_DidChangeConfiguration
    (getXMLSettings h (java_home (requirementsData args)) (logfile args)
       (externalXmlSettings args)).

(** The call a reported transition makes, and the host it leaves. *)
Definition readyCall (e : StateChangeEvent) : HostCall :=
  commands_executeCommand "setContext"
    [JString "XMLLSReady"; JBool (bool_decide (newState e = Running))].

Definition reported (h : Host) (e : StateChangeEvent) : Host :=
  set_contextKeys (<["XMLLSReady" := JBool (bool_decide (newState e = Running))]>)
    (set_calls (λ cs, cs ++ [readyCall e]) h).

Definition afterReports (reports : list StateChangeEvent) (h : Host) : Host :=
  fold_left reported reports h.

(** What [startLanguageClient] appends to [context.subscriptions]. *)
Definition addedSubscriptions (h : Host) : list Disposable :=
  [JDKChangeConfigurationSubscription; TagClosingSubscription]
  ++ (if has_extensions_onDidChange h then [ExtensionsDidChangeSubscription] else [])
  ++ [DidChangeActiveTextEditorSubscription]
  ++ (if has_onDidGrantWorkspaceTrust h then [DidGrantWorkspaceTrustSubscription] else []).

End Client.

(** ** A sample host, on which the statements below are run *)

Module Sample.

(** URIs in their string form; a string that starts with a percent sign
    has no legal scheme and is rejected. *)
#[export] Instance uri_api : UriApi :=
  {| Uri := string;
     Uri_parse := λ value, if String.prefix "%" value then None else Some value;
     Uri_toString := id |}.

#[export] Instance payloads : Payloads :=
  {| Settings := JSValue; ExternalXmlSettings := unit; Executable := string |}.

Definition read (h : Host) (key : string) : JSValue :=
  default JUndefined (configuration h None !! key).

#[export] Instance imports : Imports :=
  {| SERVER_INITIALIZED_EVT := "server.initialized";
     STARTUP_EVT := "startup";
     SETTINGS_EVT := "settings";
     getXMLConfiguration := λ h,
       {| server := {| preferBinary := read h "xml.server.preferBinary" |};
          get := λ key, read h ("xml." +:+ key) |};
     getXMLSettings := λ h javaHome log _,
       JObject [("javaHome", JString javaHome); ("logfile", JString log);
                ("downloadExternalResources",
                 read h "xml.downloadExternalResources.enabled")];
     containsVariableReferenceToCurrentFile := λ v,
       match v with JArray (_ :: _) => true | _ => false end;
     XML_SUPPORTED_LANGUAGE_IDS := [JString "xml"; JString "xsl"] |}.

Definition args : ClientArgs :=
  {| executable := "lemminx"; logfile := "lemminx.log"; externalXmlSettings := tt;
     requirementsData := {| java_home := "/usr/lib/jvm" |} |}.

Definition editor : TextEditor :=
  {| document := {| uri := "file:///a.xml" |};
     options := {| insertSpaces := JBool true; tabSize := JNumber 2 |} |}.

(** An editor on [a.xml]; globally, [b.xml] is formatted with tabs of
    width 8; preferBinary is off and downloads are disabled. *)
Definition host : Host :=
  {| activeTextEditor := Some editor;
     configuration := λ scope,
       if decide (scope = Some "file:///b.xml")
       then {[ "xml.format.tabSize" := JNumber 8; "xml.format.insertSpaces" := JBool false ]}
       else {[ "xml.server.preferBinary" := JBool false;
               "xml.downloadExternalResources.enabled" := JBool false;
               "xml.format.enabled" := JBool true ]};
     contextKeys := ∅;
     objects := λ l, if decide (l = 1%positive)
                     then {[ "settings" := JString "from the server"; "jvm" := JString "17" ]}
                     else ∅;
     serverStarts := true;
     startReports := [ {| oldState := Stopped; newState := Starting |};
                       {| oldState := Starting; newState := Running |} ];
     has_extensions_onDidChange := true;
     has_onDidGrantWorkspaceTrust := true;
     subscriptions := [];
     calls := [] |}.

(** The message of the specification's example. *)
Definition fixOrIgnore : ActionableMessage :=
  {| severity := MessageType.Warning; message := "Schema not found"; data := None;
     commands := Some [ {| title := "Fix"; command := "x.fix"; arguments := Some [JNumber 1] |};
                        {| title := "Ignore"; command := "x.ignore"; arguments := None |} ] |}.

(** A message that the interface admits: no [commands]. *)
Definition bare : ActionableMessage :=
  {| severity := MessageType.Info; message := "Server ready"; data := None;
     commands := None |}.

(** The active document asked for a section the editor does not
    override, followed by another document. *)
Definition pull : list ConfigurationItem :=
  [ {| scopeUri := "file:///a.xml"; section := "xml.format.enabled" |};
    {| scopeUri := "file:///b.xml"; section := "xml.format.tabSize" |} ].

(** The request of the specification's example. *)
Definition pullSpec : list ConfigurationItem :=
  [ {| scopeUri := "file:///a.xml"; section := "xml.format.insertSpaces" |};
    {| scopeUri := "file:///b.xml"; section := "xml.format.tabSize" |} ].

(** The server-initialized event; its properties object (reference 1 of
    [host]) already carries a settings key. *)
Definition initialized : TelemetryEvent :=
  {| name := "server.initialized"; properties := Some 1%positive |}.

(** The server-initialized event without properties. *)
Definition initializedBare : TelemetryEvent :=
  {| name := "server.initialized"; properties := None |}.

(** A request whose second item has a scope URI that does not parse. *)
Definition pullRejected : list ConfigurationItem :=
  [ {| scopeUri := "file:///b.xml"; section := "xml.format.tabSize" |};
    {| scopeUri := "%41:b.xml"; section := "xml.format.tabSize" |};
    {| scopeUri := "file:///a.xml"; section := "xml.format.tabSize" |} ].

End Sample.

(** ** Further hosts and messages for the statements below *)

Module Scenarios.
Import Sample.

(** [Sample.host] with no editor open. *)
Definition hostWithoutEditor : Host :=
  {| activeTextEditor := None;
     configuration := configuration host;
     contextKeys := contextKeys host;
     objects := objects host;
     serverStarts := serverStarts host;
     startReports := startReports host;
     has_extensions_onDidChange := has_extensions_onDidChange host;
     has_onDidGrantWorkspaceTrust := has_onDidGrantWorkspaceTrust host;
     subscriptions := subscriptions host;
     calls := calls host |}.

(** A log message: a severity the handler has no prompt for, and no
    commands. *)
Definition logged : ActionableMessage :=
  {| severity := MessageType.Log; message := "Indexing done"; data := None;
     commands := None |}.

(** Two actions under one title. *)
Definition twice : ActionableMessage :=
  {| severity := MessageType.Error; message := "Invalid catalog"; data := None;
     commands := Some [ {| title := "Open"; command := "x.open"; arguments := Some [JString "a"] |};
                        {| title := "Open"; command := "x.other"; arguments := None |} ] |}.

(** The active document asked for both of its editor options. *)
Definition pullEditor : list ConfigurationItem :=
  [ {| scopeUri := "file:///a.xml"; section := "xml.format.tabSize" |};
    {| scopeUri := "file:///a.xml"; section := "xml.format.insertSpaces" |} ].

End Scenarios.

(** * Properties *)

Create HintDb client_ops.

#[global] Hint Unfold mbind mret M_bind M_ret gets modify record_call throw
  when_available push_subscription set_property sendTelemetry freshSettings
  settle parseUri scopedConfiguration
  : client_ops.

(** Unfolds the monad and the host operations, leaving the state passing. *)
Ltac run := autounfold with client_ops; simpl.

Section HostFacts.
Context {uriApi : UriApi} {payloads : Payloads} {imports : Imports}.

Lemma State_code_Running (s : State) :
  (State_code s =? State_code Running) = bool_decide (s = Running).
Proof. by destruct s. Qed.

(** What the handler of a session-state transition leaves. *)
Lemma onDidChangeState_run (h : Host) (e : StateChangeEvent) :
  onDidChangeState e h
  = Ok (tt,
        set_contextKeys (<["XMLLSReady" := JBool (bool_decide (newState e = Running))]>)
          (set_calls (λ cs, cs ++ [commands_executeCommand "setContext"
                                     [JString "XMLLSReady";
                                      JBool (bool_decide (newState e = Running))]]) h)).
Proof. unfold onDidChangeState. by rewrite State_code_Running. Qed.

Lemma handleAll_onDidChangeState (reports : list StateChangeEvent) (h : Host) :
  handleAll onDidChangeState reports h = Ok (tt, afterReports reports h).
Proof.
  revert h. induction reports as [|e reports IH]; intros h; [done|].
  simpl. unfold mbind, M_bind at 1. rewrite onDidChangeState_run. apply IH.
Qed.

(** The reported transitions change the context keys and the call log
    only. *)
Lemma afterReports_frame (reports : list StateChangeEvent) (h : Host) :
  subscriptions (afterReports reports h) = subscriptions h
  ∧ configuration (afterReports reports h) = configuration h
  ∧ objects (afterReports reports h) = objects h
  ∧ serverStarts (afterReports reports h) = serverStarts h
  ∧ has_extensions_onDidChange (afterReports reports h) = has_extensions_onDidChange h
  ∧ has_onDidGrantWorkspaceTrust (afterReports reports h) = has_onDidGrantWorkspaceTrust h
  ∧ calls (afterReports reports h) = calls h ++ map readyCall reports.
Proof.
  revert h. induction reports as [|e reports IH]; intros h; simpl.
  - by rewrite app_nil_r.
  - destruct (IH (reported h e)) as (-> & -> & -> & -> & -> & -> & ->). simpl.
    by rewrite <- app_assoc.
Qed.



(** [executeCommand] always returns and logs exactly its own call. *)
Lemma executeCommand_calls (cmd : string) (args : list JSValue) (h : Host) :
  ∃ h', executeCommand cmd args h = Ok (tt, h')
        ∧ calls h' = calls h ++ [commands_executeCommand cmd args].
Proof.
  unfold executeCommand. run.
  destruct args as [|[] [|? []]]; try (eexists; split; [reflexivity|done]).
  destruct (decide (cmd = "setContext")); eexists; (split; [reflexivity|done]).
Qed.

(** The severities that select a prompt function. *)
Lemma selectShow_Some (sev : Z) (show : ShowFn) :
  selectShow sev = Some show ↔
    (sev = MessageType.Info ∧ show = showInformationMessage)
    ∨ (sev = MessageType.Warning ∧ show = showWarningMessage)
    ∨ (sev = MessageType.Error ∧ show = showErrorMessage).
Proof.
  unfold selectShow, MessageType.Info, MessageType.Warning, MessageType.Error.
  split.
  - destruct (Z.eqb_spec sev 3); [intros [= <-]; auto|].
    destruct (Z.eqb_spec sev 2); [intros [= <-]; auto|].
    destruct (Z.eqb_spec sev 1); [intros [= <-]; auto|discriminate].
  - intros [[-> ->]|[[-> ->]|[-> ->]]]; reflexivity.
Qed.

Lemma selectShow_None (sev : Z) :
  selectShow sev = None ↔
    sev ≠ MessageType.Info ∧ sev ≠ MessageType.Warning ∧ sev ≠ MessageType.Error.
Proof.
  unfold selectShow, MessageType.Info, MessageType.Warning, MessageType.Error.
  split.
  - destruct (Z.eqb_spec sev 3); [discriminate|].
    destruct (Z.eqb_spec sev 2); [discriminate|].
    destruct (Z.eqb_spec sev 1); [discriminate|done].
  - intros (? & ? & ?).
    destruct (Z.eqb_spec sev 3); [done|].
    destruct (Z.eqb_spec sev 2); [done|].
    destruct (Z.eqb_spec sev 1); done.
Qed.

End HostFacts.

Section SessionState.
Context {uriApi : UriApi} {payloads : Payloads} {imports : Imports}.

(** C7. After the handler of a session-state transition has run, the
    context key XMLLSReady holds a boolean, and that boolean is true
    exactly when the newly reported state is Running. *)
Theorem server_ready_iff_running (h : Host) (e : StateChangeEvent) :
  ∃ h', onDidChangeState e h = Ok (tt, h')
        ∧ contextKeys h' !! "XMLLSReady" = Some (JBool (bool_decide (newState e = Running)))
        ∧ (contextKeys h' !! "XMLLSReady" = Some (JBool true) ↔ newState e = Running).
Proof.
  eexists. split; [reflexivity|]. simpl.
  rewrite lookup_insert_eq, State_code_Running. split; [done|].
  case_bool_decide; split; (done || congruence).
Qed.

End SessionState.

Section Telemetry.
Context {uriApi : UriApi} {payloads : Payloads} {imports : Imports}.

(** What the handler does, by event name and presence of the properties. *)
Lemma onTelemetry_run (h : Host) (e : TelemetryEvent) :
  onTelemetry e h =
    if decide (name e = SERVER_INITIALIZED_EVT) then
      match properties e with
      | Some props =>
          Ok (tt,
              set_calls (λ cs, cs ++ [Telemetry_sendTelemetry STARTUP_EVT
                                        (Some (props, <[SETTINGS_EVT := settingsProperty h]>
                                                        (objects h props)))])
                (set_objects (λ objs,
                   <[props := <[SETTINGS_EVT := settingsProperty h]> (objs props)]> objs) h))
      | None => Throw (TypeError "e.properties is undefined")
      end
    else
      Ok (tt, set_calls (λ cs, cs ++ [Telemetry_sendTelemetry (name e)
                                        (seenProperties h (properties e))]) h).
Proof.
  unfold onTelemetry. destruct (decide _); [|reflexivity].
  destruct (properties e) as [props|]; [|reflexivity].
  run. unfold seenProperties. simpl. by rewrite fn_lookup_insert.
Qed.


(** C10, as the code has it. For an event whose properties object is
    there when it is the server-initialized event, the handler hands the
    very reference it received to the sink and touches no other object.
    For the server-initialized event it assigns the settings key of that
    object in place: every other key keeps its value, and the key set
    grows by exactly the settings key when the object did not have it, and
    stays the same (the old value being overwritten) when it did. For any
    other event no object is changed. *)
Theorem telemetry_frame (h : Host) (e : TelemetryEvent)
    (Hprops : name e = SERVER_INITIALIZED_EVT → is_Some (properties e)) :
  ∃ h' evt, onTelemetry e h = Ok (tt, h')
    ∧ calls h' = calls h ++ [Telemetry_sendTelemetry evt (seenProperties h' (properties e))]
    ∧ (∀ l, properties e ≠ Some l → objects h' l = objects h l)
    ∧ if decide (name e = SERVER_INITIALIZED_EVT) then
        ∃ props, properties e = Some props
          ∧ (∀ k, k ≠ SETTINGS_EVT → objects h' props !! k = objects h props !! k)
          ∧ dom (objects h' props) = {[SETTINGS_EVT]} ∪ dom (objects h props)
          ∧ size (objects h' props) =
              match objects h props !! SETTINGS_EVT with
              | None => S (size (objects h props))
              | Some _ => size (objects h props)
              end
      else
        ∀ l, objects h' l = objects h l.
Proof.
  destruct (decide (name e = SERVER_INITIALIZED_EVT)) as [Hinit|Hother].
  - destruct (Hprops Hinit) as [props Hsome].
    eexists. exists STARTUP_EVT.
    rewrite onTelemetry_run, decide_True, Hsome by done.
    split; [reflexivity|]. unfold seenProperties. simpl. rewrite !fn_lookup_insert.
    split; [done|]. split.
    { intros l Hl. rewrite fn_lookup_insert_ne; [done|]. by intros ->. }
    exists props. split; [done|]. split; [|split].
    + intros k Hk. by rewrite fn_lookup_insert, lookup_insert_ne.
    + rewrite fn_lookup_insert. apply dom_insert_L.
    + rewrite fn_lookup_insert.
      destruct (objects h props !! SETTINGS_EVT) eqn:Hold.
      * apply map_size_insert_Some. eauto.
      * by apply map_size_insert_None.
  - eexists. exists (name e).
    rewrite onTelemetry_run, decide_False by done.
    split; [reflexivity|]. simpl. by repeat split.
Qed.

End Telemetry.

Section ConfigurationPush.
Context {uriApi : UriApi} {payloads : Payloads} {imports : Imports}.

(** C6. On an active-editor change the handler makes, when the file
    associations refer to the current file, exactly one settings push
    with settings computed at that moment followed by exactly one call of
    the configuration-changed callback, and no call at all otherwise. *)
Theorem active_editor_change (args : ClientArgs) (h : Host) :
  ∃ h', onDidChangeActiveTextEditor args h = Ok (tt, h')
    ∧ calls h' = calls h ++
        (if containsVariableReferenceToCurrentFile
              (get (getXMLConfiguration h) "fileAssociations")
         then [settingsPush args h; call_onConfigurationChange]
         else []).
Proof.
  unfold onDidChangeActiveTextEditor. run.
  destruct (containsVariableReferenceToCurrentFile _); eexists; (split; [reflexivity|]);
    simpl.
  - by rewrite <- app_assoc.
  - by rewrite app_nil_r.
Qed.

Lemma startLanguageClient_run (args : ClientArgs) (h : Host) :
  serverStarts h = true →
  ∃ h1, startLanguageClient args h = Ok (newLanguageClient h args, h1)
        ∧ subscriptions h1 = subscriptions h ++ addedSubscriptions h
        ∧ calls h1 = calls h ++ map readyCall (startReports h)
                     ++ [call_registerClientServerCommands]
        ∧ contextKeys h1 = contextKeys (afterReports (startReports h) h)
        ∧ configuration h1 = configuration h
        ∧ objects h1 = objects h.
Proof.
  intros Hs. unfold startLanguageClient, languageClient_start, addedSubscriptions. run.
  rewrite handleAll_onDidChangeState.
  destruct (afterReports_frame (startReports h) h)
    as (Hsubs & Hcfg & Hobjs & Hstarts & Hext & Htrust & Hcalls).
  rewrite Hstarts, Hs. simpl. rewrite Hext.
  destruct (has_extensions_onDidChange h); simpl; rewrite Htrust;
    destruct (has_onDidGrantWorkspaceTrust h); simpl;
    eexists; (split; [reflexivity|]); simpl;
    rewrite Hsubs, Hcalls, Hcfg, Hobjs, <- ?app_assoc; done.
Qed.

Lemma onDidGrantWorkspaceTrust_run (args : ClientArgs) (h : Host) :
  ∃ h', onDidGrantWorkspaceTrust args h = Ok (tt, h')
        ∧ calls h' = calls h ++ [settingsPush args h]
        ∧ WorkspaceConfiguration_get h' (workspace_getConfiguration (Some "xml") None)
            "downloadExternalResources.enabled" = JBool true.
Proof.
  eexists. split; [reflexivity|]. split; [done|].
  unfold WorkspaceConfiguration_get. simpl.
  by rewrite fn_lookup_insert, lookup_insert_eq.
Qed.

(** C8. When the client starts, the trust-granted event is subscribed to
    exactly when the host exposes it, and the start succeeds either way;
    the subscribed handler, whenever it runs, pushes settings computed at
    that moment and leaves the flag
    xml.downloadExternalResources.enabled true, whatever it was. *)
Theorem workspace_trust (args : ClientArgs) (h : Host) (Hstart : serverStarts h = true) :
  (∃ opts h1 added,
      startLanguageClient args h = Ok (opts, h1)
      ∧ subscriptions h1 = subscriptions h ++ added
      ∧ length (filter (λ d, d = DidGrantWorkspaceTrustSubscription) added)
        = (if has_onDidGrantWorkspaceTrust h then 1%nat else 0%nat))
  ∧ ∀ h2 : Host,
      ∃ h3, onDidGrantWorkspaceTrust args h2 = Ok (tt, h3)
        ∧ calls h3 = calls h2 ++ [settingsPush args h2]
        ∧ WorkspaceConfiguration_get h3 (workspace_getConfiguration (Some "xml") None)
            "downloadExternalResources.enabled" = JBool true.
Proof.
  split; [|intros h2; apply onDidGrantWorkspaceTrust_run].
  destruct (startLanguageClient_run args h Hstart) as (h1 & Hrun & Hsubs & _).
  exists (newLanguageClient h args), h1, (addedSubscriptions h).
  split; [done|]. split; [done|].
  unfold addedSubscriptions.
  by destruct (has_extensions_onDidChange h), (has_onDidGrantWorkspaceTrust h).
Qed.

Lemma didChangeConfiguration_run (args : ClientArgs) (h : Host) :
  didChangeConfiguration args h
  = Ok (tt, set_calls (λ cs, cs ++ [settingsPush args h; call_onConfigurationChange]) h).
Proof.
  unfold didChangeConfiguration. run.
  unfold set_calls. simpl. by rewrite <- app_assoc.
Qed.

End ConfigurationPush.

Section ActionableNotification.
Context {uriApi : UriApi} {payloads : Payloads} {imports : Imports}.

(** With the commands present, a recognised severity shows one prompt of
    the matching style, with the titles of the actions as buttons. *)
Lemma actionable_prompt_shown (h : Host) (n : ActionableMessage) (show : ShowFn)
    (actions : list Command) :
  selectShow (severity n) = Some show →
  commands n = Some actions →
  onActionableNotification n h
  = Ok (tt, set_calls (λ cs, cs ++ [window_show show (message n) (map title actions)]) h).
Proof. intros Hs Hc. unfold onActionableNotification. by rewrite Hs, Hc. Qed.

(** Any other severity is dropped before the commands are looked at. *)
Lemma actionable_unknown_severity_dropped (h : Host) (n : ActionableMessage) :
  severity n ≠ MessageType.Info → severity n ≠ MessageType.Warning →
  severity n ≠ MessageType.Error →
  onActionableNotification n h = Ok (tt, h).
Proof.
  intros H1 H2 H3. unfold onActionableNotification.
  by rewrite (proj2 (selectShow_None (severity n))).
Qed.

(** C2, where the code departs from it. An information message that
    carries no commands, which the message interface allows, shows no
    prompt: the handler throws before it reaches the prompt function. *)
Theorem actionable_without_commands_throws (h : Host) (msg : string) (d : option JSValue) :
  onActionableNotification
    {| severity := MessageType.Info; message := msg; data := d; commands := None |} h
  = Throw (TypeError "notification.commands is undefined").
Proof. reflexivity. Qed.

(** C4. For a message of severity info, warning or error the handler
    reads the commands to build the button titles: with the commands
    present (an empty list included) it returns, having shown one prompt
    with their titles; with the commands absent it throws and shows
    nothing. *)
Theorem actionable_needs_commands (h : Host) (n : ActionableMessage)
    (Hsev : severity n = MessageType.Info ∨ severity n = MessageType.Warning
            ∨ severity n = MessageType.Error) :
  match commands n with
  | Some actions =>
      ∃ show, onActionableNotification n h
              = Ok (tt, set_calls (λ cs, cs ++ [window_show show (message n) (map title actions)]) h)
  | None =>
      ∃ e, onActionableNotification n h = Throw e
  end.
Proof.
  assert (∃ show, selectShow (severity n) = Some show) as [show Hshow].
  { destruct Hsev as [Hs | [Hs | Hs]]; rewrite Hs; eexists; reflexivity. }
  destruct (commands n) as [actions|] eqn:Hc.
  - exists show. by apply actionable_prompt_shown.
  - unfold onActionableNotification. rewrite Hshow, Hc. by eexists.
Qed.

Lemma runSelected_first_match (before after : list Command) (a : Command) (h : Host) :
  Forall (λ b, title b ≠ title a) before →
  runSelected (before ++ a :: after) (Some (title a)) h
  = executeCommand (command a)
      (match arguments a with Some args => args | None => [] end) h.
Proof.
  induction 1 as [|b before Hb _ IH]; simpl.
  - by rewrite decide_True.
  - rewrite decide_False; [exact IH|]. by intros [= ?].
Qed.

Lemma runSelected_dismissed (actions : list Command) (h : Host) :
  runSelected actions None h = Ok (tt, h).
Proof. induction actions as [|a actions IH]; [done|]. simpl. exact IH. Qed.

Lemma runSelected_no_match (actions : list Command) (t : string) (h : Host) :
  Forall (λ b, title b ≠ t) actions →
  runSelected actions (Some t) h = Ok (tt, h).
Proof.
  induction 1 as [|b actions Hb _ IH]; [done|]. simpl.
  rewrite decide_False; [exact IH|]. by intros [= ?].
Qed.

(** C3. When the prompt of a message is resolved with the title of an
    action [a] that no earlier action of the list carries, exactly one
    command is executed: the command of [a], with its arguments, or with
    no argument if it has none; whatever follows [a] in the list, same
    title or not, is not run. When the prompt is dismissed, the handler
    returns without executing anything. *)
Theorem prompt_resolution (h : Host) (n : ActionableMessage)
    (before after : list Command) (a : Command)
    (Hcommands : commands n = Some (before ++ a :: after))
    (Hfirst : Forall (λ b, title b ≠ title a) before) :
  (∃ h', onPromptResolved n (Some (title a)) h = Ok (tt, h')
         ∧ calls h' = calls h ++
             [commands_executeCommand (command a)
                (match arguments a with Some args => args | None => [] end)])
  ∧ onPromptResolved n None h = Ok (tt, h).
Proof.
  unfold onPromptResolved. rewrite Hcommands. split.
  - rewrite runSelected_first_match by done. apply executeCommand_calls.
  - apply runSelected_dismissed.
Qed.

End ActionableNotification.

Section ConfigurationPull.
Context {uriApi : UriApi} {payloads : Payloads} {imports : Imports}.

(** One turn of the loop: it throws on a scope URI that does not parse,
    and appends the answer to the item otherwise. *)
Lemma configurationStep_run (h : Host) (result : list JSValue) (item : ConfigurationItem) :
  configurationStep (activeTextEditor h) result item h
  = if parses item then Ok (result ++ answer h item, h)
    else Throw (UriError (scopeUri item)).
Proof.
  unfold configurationStep, answer, parses, unanswered, isActiveDocument,
    configurationEntry_spec, scoped, editorOption.
  destruct (activeTextEditor h) as [editor|]; run;
    destruct (Uri_parse (scopeUri item)) as [scope|] eqn:Hparse; simpl; try done.
  case_bool_decide; simpl; [|done].
  destruct (decide (section item = "xml.format.insertSpaces")) as [Hi|Hi].
  { by rewrite bool_decide_eq_true_2. }
  rewrite (bool_decide_eq_false_2 _ Hi). simpl.
  destruct (decide (section item = "xml.format.tabSize")) as [Ht|Ht].
  { by rewrite bool_decide_eq_true_2. }
  rewrite (bool_decide_eq_false_2 _ Ht). simpl. by rewrite app_nil_r.
Qed.

Lemma configurationLoop_run (h : Host) (items : list ConfigurationItem)
    (result : list JSValue) :
  configurationLoop (activeTextEditor h) items result h
  = match firstRejected items with
    | Some bad => Throw (UriError bad)
    | None => Ok (result ++ concat (map (answer h) items), h)
    end.
Proof.
  revert result. induction items as [|item items IH]; intros result; simpl.
  - by rewrite app_nil_r.
  - unfold mbind, M_bind at 1. rewrite configurationStep_run.
    destruct (parses item); [|done]. rewrite IH.
    destruct (firstRejected items); [done|]. by rewrite <- app_assoc.
Qed.

Lemma answers_filter (h : Host) (items : list ConfigurationItem) :
  concat (map (answer h) items)
  = map (configurationEntry_spec h) (filter (λ item, unanswered h item = false) items).
Proof.
  induction items as [|item items IH]; [done|]. simpl. rewrite IH.
  unfold answer at 1. destruct (unanswered h item) eqn:Hu.
  - by rewrite filter_cons_False by (by rewrite Hu).
  - by rewrite filter_cons_True by done.
Qed.

(** The handler throws on the first scope URI that does not parse;
    otherwise it leaves the host as it is and answers exactly the items
    that are not [unanswered], in request order. *)
Lemma onConfigurationRequest_run (h : Host) (items : list ConfigurationItem) :
  onConfigurationRequest items h
  = match firstRejected items with
    | Some bad => Throw (UriError bad)
    | None =>
        Ok (map (configurationEntry_spec h)
              (filter (λ item, unanswered h item = false) items), h)
    end.
Proof.
  unfold onConfigurationRequest. run. rewrite configurationLoop_run.
  destruct (firstRejected items); [done|]. simpl. by rewrite answers_filter.
Qed.

(** When every item is answered the response is the specification's:
    one entry per item, in request order; the request fails when a scope
    URI does not parse. *)
Lemma onConfigurationRequest_all_answered (h : Host) (items : list ConfigurationItem) :
  Forall (λ item, unanswered h item = false) items →
  match firstRejected items with
  | Some bad => onConfigurationRequest items h = Throw (UriError bad)
  | None => onConfigurationRequest items h = Ok (map (configurationEntry_spec h) items, h)
  end.
Proof.
  intros Hall. rewrite onConfigurationRequest_run.
  destruct (firstRejected items); [done|]. do 3 f_equal.
  induction Hall as [|item items Hi _ IH]; [done|].
  by rewrite filter_cons_True, IH by done.
Qed.

End ConfigurationPull.

(** * The statements on the sample host *)

Section OnSample.
Import Sample.

(** The example of the specification: both items are answered, in
    request order. *)
Example configuration_pull_spec_example :
  onConfigurationRequest pullSpec host = Ok ([JBool true; JNumber 8], host).
Proof. reflexivity. Qed.

(** C1, where the code departs from it. The active document is asked for
    xml.format.enabled and then another document for xml.format.tabSize:
    the response has one entry for the two items, and its entry 0 is the
    answer to item 1. One entry per item would have been the scoped
    global value of xml.format.enabled followed by that answer. *)
Theorem configuration_pull_drops_item :
  onConfigurationRequest pull host = Ok ([JNumber 8], host)
  ∧ length pull = 2%nat
  ∧ map (configurationEntry_spec host) pull = [JBool true; JNumber 8].
Proof. repeat split. Qed.

(** The example of the specification for the prompt. *)
Example prompt_fix_example :
  ∃ h', onPromptResolved fixOrIgnore (Some "Fix") host = Ok (tt, h')
        ∧ calls h' = [commands_executeCommand "x.fix" [JNumber 1]].
Proof. eexists. split; [cbv; reflexivity | reflexivity]. Qed.

Lemma prompt_resolution_witness :
  (∃ h', onPromptResolved fixOrIgnore (Some "Ignore") host = Ok (tt, h')
         ∧ calls h' = [commands_executeCommand "x.ignore" []])
  ∧ onPromptResolved fixOrIgnore None host = Ok (tt, host).
Proof.
  apply (prompt_resolution host fixOrIgnore
           [ {| title := "Fix"; command := "x.fix"; arguments := Some [JNumber 1] |} ] []
           {| title := "Ignore"; command := "x.ignore"; arguments := None |}).
  - reflexivity.
  - repeat constructor. simpl. discriminate.
Defined.

Lemma actionable_needs_commands_witness :
  severity bare = MessageType.Info
  ∧ ∃ e, onActionableNotification bare host = Throw e.
Proof.
  split; [reflexivity|].
  exact (actionable_needs_commands host bare (or_introl eq_refl)).
Defined.

Lemma workspace_trust_witness :
  serverStarts host = true
  ∧ WorkspaceConfiguration_get host (workspace_getConfiguration (Some "xml") None)
      "downloadExternalResources.enabled" = JBool false
  ∧ ∃ h3, onDidGrantWorkspaceTrust args host = Ok (tt, h3)
          ∧ WorkspaceConfiguration_get h3 (workspace_getConfiguration (Some "xml") None)
              "downloadExternalResources.enabled" = JBool true.
Proof.
  split; [reflexivity|]. split; [reflexivity|].
  destruct (workspace_trust args host eq_refl) as [_ Hgrant].
  destruct (Hgrant host) as (h3 & Hrun & _ & Hflag).
  exists h3. split; [exact Hrun | exact Hflag].
Defined.



(** C10 as worded fails on the sample event: its properties already have
    the settings key, so the handler adds no key and changes the value
    of one that was there; and on the event without properties there is
    no object to mutate or to forward. *)
Lemma telemetry_frame_counterexample :
  ¬ (∀ h', onTelemetry initialized host = Ok (tt, h') →
           size (objects h' 1%positive) = S (size (objects host 1%positive))
           ∧ ∀ k v, objects host 1%positive !! k = Some v →
                    objects h' 1%positive !! k = Some v)
  ∧ ¬ ∃ h', onTelemetry initializedBare host = Ok (tt, h').
Proof.
  split.
  - intros Hclaim.
    destruct (Hclaim _ (onTelemetry_run host initialized)) as [Hsize _].
    vm_compute in Hsize. discriminate.
  - intros [h' Hrun]. discriminate Hrun.
Qed.

Lemma telemetry_frame_witness :
  ∃ h', onTelemetry initialized host = Ok (tt, h')
        ∧ objects h' 1%positive !! "jvm" = Some (JString "17")
        ∧ size (objects h' 1%positive) = 2%nat.
Proof.
  destruct (telemetry_frame host initialized (λ _, mk_is_Some _ _ eq_refl))
    as (h' & evt & Hrun & _ & _ & props & Hprops & Hkeep & _ & Hsize).
  injection Hprops as <-.
  exists h'. split; [exact Hrun|].
  split; [rewrite Hkeep; [reflexivity | discriminate] | exact Hsize].
Defined.

End OnSample.


(** * Further properties of the handlers *)

Section ConfigurationPullMore.
Context {uriApi : UriApi} {payloads : Payloads} {imports : Imports}.

Lemma filter_unanswered_split (h : Host) (items : list ConfigurationItem) :
  (length (filter (λ item, unanswered h item = false) items)
   + length (filter (λ item, unanswered h item = true) items))%nat
  = length items.
Proof.
  induction items as [|item items IH]; [done|].
  destruct (unanswered h item) eqn:Hu.
  - rewrite filter_cons_False, filter_cons_True by (by rewrite ?Hu). simpl. lia.
  - rewrite filter_cons_True, filter_cons_False by (by rewrite ?Hu). simpl. lia.
Qed.

(** The configuration-pull handler throws exactly when [Uri.parse]
    rejects the scope URI of some item, with the error for the first such
    item. Otherwise it leaves the host as it is, and its response is short
    of the request by exactly the items of the active document that ask
    for a section other than the two editor options, so it is never longer
    than the request. *)
Theorem configuration_pull_length (h : Host) (items : list ConfigurationItem) :
  match firstRejected items with
  | Some bad => onConfigurationRequest items h = Throw (UriError bad)
  | None =>
      ∃ response,
        onConfigurationRequest items h = Ok (response, h)
        ∧ (length response + length (filter (λ item, unanswered h item = true) items))%nat
          = length items
        ∧ (length response ≤ length items)%nat
  end.
Proof.
  rewrite onConfigurationRequest_run. destruct (firstRejected items); [done|].
  eexists. split; [reflexivity|].
  rewrite length_map. pose proof (filter_unanswered_split h items). lia.
Qed.

(** With no editor open every item is answered from the configuration
    store, scoped to the item's URI; the request fails at the first scope
    URI that does not parse. *)
Theorem configuration_pull_without_editor (h : Host) (items : list ConfigurationItem)
    (Hnone : activeTextEditor h = None) :
  match firstRejected items with
  | Some bad => onConfigurationRequest items h = Throw (UriError bad)
  | None => onConfigurationRequest items h = Ok (map (scoped h) items, h)
  end.
Proof.
  rewrite onConfigurationRequest_run. destruct (firstRejected items); [done|].
  do 2 f_equal.
  induction items as [|item items IH]; [done|].
  rewrite filter_cons_True.
  - simpl. rewrite IH. f_equal. unfold configurationEntry_spec. by rewrite Hnone.
  - unfold unanswered, isActiveDocument. by rewrite Hnone.
Qed.

Lemma firstRejected_app (xs ys : list ConfigurationItem) :
  firstRejected (xs ++ ys)
  = match firstRejected xs with
    | Some bad => Some bad
    | None => firstRejected ys
    end.
Proof.
  induction xs as [|x xs IH]; [done|]. simpl. by destruct (parses x).
Qed.

(** The response to a request is the response to its first part followed
    by the response to the rest: no item influences the answer to another.
    A request fails when one of its parts does, with the error of the
    first part that fails. *)
Theorem configuration_pull_app (h : Host) (xs ys : list ConfigurationItem) :
  match firstRejected (xs ++ ys) with
  | None =>
      ∃ rx ry,
        onConfigurationRequest xs h = Ok (rx, h)
        ∧ onConfigurationRequest ys h = Ok (ry, h)
        ∧ onConfigurationRequest (xs ++ ys) h = Ok (rx ++ ry, h)
  | Some bad =>
      onConfigurationRequest (xs ++ ys) h = Throw (UriError bad)
      ∧ (onConfigurationRequest xs h = Throw (UriError bad)
         ∨ (∃ rx, onConfigurationRequest xs h = Ok (rx, h))
           ∧ onConfigurationRequest ys h = Throw (UriError bad))
  end.
Proof.
  rewrite !onConfigurationRequest_run, firstRejected_app.
  destruct (firstRejected xs) as [bad|].
  - split; [done|]. by left.
  - destruct (firstRejected ys) as [bad|].
    + split; [done|]. right. split; [by eexists|done].
    + do 2 eexists. split; [done|]. split; [done|].
      by rewrite filter_app, map_app.
Qed.

(** For the active document the two formatting sections are answered with
    the editor's own option; the configuration store is not consulted. *)
Theorem configuration_pull_editor_option (h : Host) (editor : TextEditor)
    (item : ConfigurationItem) (scope : Uri)
    (Hactive : activeTextEditor h = Some editor)
    (Hparse : Uri_parse (scopeUri item) = Some scope)
    (Hdoc : Uri_toString (uri (document editor)) = Uri_toString scope)
    (Hsection : section item = "xml.format.insertSpaces" ∨ section item = "xml.format.tabSize") :
  onConfigurationRequest [item] h
  = Ok ([if decide (section item = "xml.format.insertSpaces")
         then insertSpaces (options editor) else tabSize (options editor)], h).
Proof.
  unfold onConfigurationRequest. run. rewrite Hactive. simpl. run.
  rewrite Hparse. simpl. rewrite bool_decide_eq_true_2 by done. simpl.
  unfold editorOption.
  destruct (decide (section item = "xml.format.insertSpaces")); [done|].
  destruct Hsection as [?|Ht]; [done|]. by rewrite decide_True.
Qed.

End ConfigurationPullMore.

Section ActionableNotificationMore.
Context {uriApi : UriApi} {payloads : Payloads} {imports : Imports}.

(** With the commands present the handler shows one prompt, information
    for severity 3, warning for 2, error for 1, with the action titles in
    order as its buttons; for every other severity it does nothing. No
    command is executed at this stage. *)
Theorem actionable_prompt_by_severity (h : Host) (n : ActionableMessage)
    (actions : list Command) (Hcommands : commands n = Some actions) :
  onActionableNotification n h
  = Ok (tt,
        if decide (severity n = MessageType.Info) then
          set_calls (λ cs, cs ++ [window_show showInformationMessage (message n)
                                     (map title actions)]) h
        else if decide (severity n = MessageType.Warning) then
          set_calls (λ cs, cs ++ [window_show showWarningMessage (message n)
                                     (map title actions)]) h
        else if decide (severity n = MessageType.Error) then
          set_calls (λ cs, cs ++ [window_show showErrorMessage (message n)
                                     (map title actions)]) h
        else h).
Proof.
  destruct (decide (severity n = MessageType.Info)) as [Hi|Hi].
  { apply actionable_prompt_shown; [|done]. by rewrite Hi. }
  destruct (decide (severity n = MessageType.Warning)) as [Hw|Hw].
  { apply actionable_prompt_shown; [|done]. by rewrite Hw. }
  destruct (decide (severity n = MessageType.Error)) as [He|He].
  { apply actionable_prompt_shown; [|done]. by rewrite He. }
  unfold onActionableNotification.
  by rewrite (proj2 (selectShow_None (severity n))).
Qed.

(** What the loop of the [then] callback does, for any selection: it
    returns, and either nothing was executed, or one command was, that of
    an action of the list whose title is the selection. *)
Lemma runSelected_calls (actions : list Command) (selection : option string) (h : Host) :
  ∃ h', runSelected actions selection h = Ok (tt, h')
    ∧ (h' = h
       ∨ ∃ a, a ∈ actions ∧ Some (title a) = selection
              ∧ calls h' = calls h ++
                  [commands_executeCommand (command a)
                     (match arguments a with Some args => args | None => [] end)]).
Proof.
  induction actions as [|b actions IH]; simpl.
  - exists h. split; [done|]. by left.
  - destruct (decide (Some (title b) = selection)) as [Hb|Hb].
    + destruct (executeCommand_calls (command b)
                  (match arguments b with Some args => args | None => [] end) h)
        as (h' & Hrun & Hcalls).
      exists h'. split; [done|]. right. exists b. split; [apply list_elem_of_here|done].
    + destruct IH as (h' & Hrun & [->|(a & Ha & Ht & Hcalls)]).
      * exists h. split; [done|]. by left.
      * exists h'. split; [done|]. right. exists a.
        split; [by apply list_elem_of_further|done].
Qed.

(** One prompt leads to at most one executed command, and that command
    belongs to an action of the message whose title is the selection. *)
Theorem prompt_at_most_one_command (h : Host) (n : ActionableMessage)
    (actions : list Command) (selection : option string)
    (Hcommands : commands n = Some actions) :
  ∃ h', onPromptResolved n selection h = Ok (tt, h')
    ∧ (h' = h
       ∨ ∃ a, a ∈ actions ∧ Some (title a) = selection
              ∧ calls h' = calls h ++
                  [commands_executeCommand (command a)
                     (match arguments a with Some args => args | None => [] end)]).
Proof. unfold onPromptResolved. rewrite Hcommands. apply runSelected_calls. Qed.

(** A selection that is the title of no action executes nothing and is no
    error: the host is left as it was. *)
Theorem prompt_unmatched_selection (h : Host) (n : ActionableMessage)
    (actions : list Command) (t : string)
    (Hcommands : commands n = Some actions)
    (Hnone : Forall (λ a, title a ≠ t) actions) :
  onPromptResolved n (Some t) h = Ok (tt, h).
Proof. unfold onPromptResolved. rewrite Hcommands. by apply runSelected_no_match. Qed.

Lemma first_with_title (actions : list Command) (t : string) :
  t ∈ map title actions →
  ∃ before a after, actions = before ++ a :: after ∧ title a = t
                    ∧ Forall (λ b, title b ≠ t) before.
Proof.
  induction actions as [|b actions IH]; simpl; [by intros ?%elem_of_nil|].
  intros Hin. destruct (decide (title b = t)) as [Hb|Hb].
  - exists [], b, actions. by repeat split.
  - apply elem_of_cons in Hin as [?|Hin]; [done|].
    destruct (IH Hin) as (before & a & after & -> & Ha & Hbefore).
    exists (b :: before), a, after. split; [done|]. split; [done|]. by constructor.
Qed.

(** Every button of the prompt does something: selecting any of the shown
    titles executes exactly one command, that of an action with this
    title. *)
Theorem prompt_button_runs_command (h : Host) (n : ActionableMessage)
    (actions : list Command) (t : string)
    (Hcommands : commands n = Some actions)
    (Hshown : t ∈ map title actions) :
  ∃ h' a, onPromptResolved n (Some t) h = Ok (tt, h')
    ∧ a ∈ actions ∧ title a = t
    ∧ calls h' = calls h ++
        [commands_executeCommand (command a)
           (match arguments a with Some args => args | None => [] end)].
Proof.
  destruct (first_with_title actions t Hshown) as (before & a & after & -> & Ha & Hbefore).
  unfold onPromptResolved. rewrite Hcommands. subst t.
  rewrite runSelected_first_match by done.
  destruct (executeCommand_calls (command a)
              (match arguments a with Some args => args | None => [] end) h)
    as (h' & Hrun & Hcalls).
  exists h', a. split; [done|]. split; [|done].
  apply elem_of_app. right. apply list_elem_of_here.
Qed.

(** [xml/executeClientCommand]: with arguments the named command is
    executed once with them; without arguments the spread throws and no
    command is executed. *)
Theorem execute_client_command (h : Host) (params : ExecuteCommandParams) :
  match params_arguments params with
  | Some args =>
      ∃ h', onExecuteClientCommand params h = Ok (tt, h')
            ∧ calls h' = calls h ++ [commands_executeCommand (params_command params) args]
  | None => ∃ e, onExecuteClientCommand params h = Throw e
  end.
Proof.
  unfold onExecuteClientCommand. destruct (params_arguments params) as [args|].
  - apply executeCommand_calls.
  - by eexists.
Qed.

End ActionableNotificationMore.

Section SessionStateMore.
Context {uriApi : UriApi} {payloads : Payloads} {imports : Imports}.

(** After any sequence of session-state transitions the flag XMLLSReady
    tells whether the last reported state is Running; what the earlier
    transitions reported, and the old state of each event, do not matter. *)
Theorem server_ready_follows_last_transition (h : Host)
    (earlier : list StateChangeEvent) (e : StateChangeEvent) :
  ∃ h', handleAll onDidChangeState (earlier ++ [e]) h = Ok (tt, h')
        ∧ contextKeys h' !! "XMLLSReady"
          = Some (JBool (bool_decide (newState e = Running))).
Proof.
  revert h. induction earlier as [|e0 earlier IH]; intros h.
  - eexists. simpl. unfold mbind, M_bind. rewrite onDidChangeState_run.
    split; [reflexivity|]. simpl. apply lookup_insert_eq.
  - simpl. unfold mbind, M_bind at 1. rewrite onDidChangeState_run. apply IH.
Qed.

(** A session-state transition makes one call, of the setContext command,
    and changes nothing but the XMLLSReady key: other context keys, the
    configuration, the objects and the subscriptions stay as they were. *)
Theorem session_state_frame (h : Host) (e : StateChangeEvent) :
  ∃ h', onDidChangeState e h = Ok (tt, h')
    ∧ calls h' = calls h ++ [commands_executeCommand "setContext"
                               [JString "XMLLSReady";
                                JBool (bool_decide (newState e = Running))]]
    ∧ dom (contextKeys h') = {["XMLLSReady"]} ∪ dom (contextKeys h)
    ∧ (∀ key, key ≠ "XMLLSReady" → contextKeys h' !! key = contextKeys h !! key)
    ∧ configuration h' = configuration h
    ∧ objects h' = objects h
    ∧ subscriptions h' = subscriptions h.
Proof.
  eexists. split; [apply onDidChangeState_run|]. simpl.
  split; [done|]. split; [apply dom_insert_L|]. split; [|done].
  intros key Hkey. by rewrite lookup_insert_ne.
Qed.

End SessionStateMore.

Section TelemetryMore.
Context {uriApi : UriApi} {payloads : Payloads} {imports : Imports}.

(** When the startup event name differs from the server-initialized one,
    the telemetry sink never receives an event under the
    server-initialized name: an event that is handled is sent once, under
    the startup name or under a name that is not that one. The only event
    that is not sent is the server-initialized event without properties,
    on which the handler throws. *)
Theorem telemetry_initialized_name_not_forwarded (h : Host) (e : TelemetryEvent)
    (Hdistinct : STARTUP_EVT ≠ SERVER_INITIALIZED_EVT) :
  match onTelemetry e h with
  | Ok (_, h') =>
      ∃ evt, calls h' = calls h ++
               [Telemetry_sendTelemetry evt (seenProperties h' (properties e))]
             ∧ evt ≠ SERVER_INITIALIZED_EVT
  | Throw _ => name e = SERVER_INITIALIZED_EVT ∧ properties e = None
  end.
Proof.
  rewrite onTelemetry_run.
  destruct (decide (name e = SERVER_INITIALIZED_EVT)) as [Hinit|Hother].
  - destruct (properties e) as [props|]; [|done].
    exists STARTUP_EVT. split; [|done].
    unfold seenProperties. simpl. by rewrite fn_lookup_insert.
  - exists (name e). by split.
Qed.

(** Handling the server-initialized event again, with the preference
    unchanged, leaves every object as the first handling left it: the
    settings property is set to the same value. *)
Theorem telemetry_initialized_again (h h1 : Host) (e : TelemetryEvent)
    (Hname : name e = SERVER_INITIALIZED_EVT)
    (Hfirst : onTelemetry e h = Ok (tt, h1))
    (Hsame : settingsProperty h1 = settingsProperty h) :
  ∃ h2, onTelemetry e h1 = Ok (tt, h2) ∧ ∀ l, objects h2 l = objects h1 l.
Proof.
  rewrite onTelemetry_run, decide_True in Hfirst by done.
  destruct (properties e) as [props|] eqn:Hprops; [|discriminate].
  eexists. split.
  { rewrite onTelemetry_run, decide_True, Hprops by done. reflexivity. }
  simpl. rewrite Hsame.
  injection Hfirst as <-. simpl. intros l.
  destruct (decide (props = l)) as [<-|Hl].
  - by rewrite !fn_lookup_insert, insert_insert_eq.
  - by rewrite !fn_lookup_insert_ne.
Qed.

End TelemetryMore.

Section ConfigurationPushMore.
Context {uriApi : UriApi} {payloads : Payloads} {imports : Imports}.


(** An active-editor change does what the configuration-change middleware
    does when the file associations refer to the current file, and leaves
    the whole host untouched otherwise. *)
Theorem active_editor_change_as_middleware (args : ClientArgs) (h : Host) :
  onDidChangeActiveTextEditor args h
  = if containsVariableReferenceToCurrentFile (get (getXMLConfiguration h) "fileAssociations")
    then didChangeConfiguration args h
    else Ok (tt, h).
Proof.
  unfold onDidChangeActiveTextEditor, didChangeConfiguration. run.
  by destruct (containsVariableReferenceToCurrentFile _).
Qed.


End ConfigurationPushMore.

(** * The further properties on the sample hosts *)

Section OnScenarios.
Import Sample Scenarios.

Lemma configuration_pull_without_editor_witness :
  activeTextEditor hostWithoutEditor = None
  ∧ onConfigurationRequest pull hostWithoutEditor
    = Ok ([JBool true; JNumber 8], hostWithoutEditor).
Proof.
  split; [reflexivity|].
  exact (configuration_pull_without_editor hostWithoutEditor pull eq_refl).
Defined.

Lemma configuration_pull_editor_option_witness :
  activeTextEditor host = Some editor
  ∧ onConfigurationRequest
      [ {| scopeUri := "file:///a.xml"; section := "xml.format.tabSize" |} ] host
    = Ok ([JNumber 2], host).
Proof.
  split; [reflexivity|].
  exact (configuration_pull_editor_option host editor
           {| scopeUri := "file:///a.xml"; section := "xml.format.tabSize" |}
           "file:///a.xml" eq_refl eq_refl eq_refl (or_intror eq_refl)).
Defined.

Lemma onConfigurationRequest_all_answered_witness :
  Forall (λ item, unanswered host item = false) pullEditor
  ∧ onConfigurationRequest pullEditor host = Ok ([JNumber 2; JBool true], host).
Proof.
  assert (Forall (λ item, unanswered host item = false) pullEditor) as Hall.
  { repeat constructor. }
  split; [exact Hall|].
  exact (onConfigurationRequest_all_answered host pullEditor Hall).
Defined.

(** A request with a scope URI that does not parse fails as a whole, the
    items before it included. *)
Example configuration_pull_rejected_example :
  onConfigurationRequest pullRejected host = Throw (UriError "%41:b.xml").
Proof. reflexivity. Qed.

Lemma actionable_unknown_severity_dropped_witness :
  severity logged = MessageType.Log
  ∧ onActionableNotification logged host = Ok (tt, host).
Proof.
  split; [reflexivity|].
  apply (actionable_unknown_severity_dropped host logged); discriminate.
Defined.

Lemma actionable_prompt_by_severity_witness :
  onActionableNotification fixOrIgnore host
  = Ok (tt, set_calls (λ cs, cs ++ [window_show showWarningMessage "Schema not found"
                                      ["Fix"; "Ignore"]]) host).
Proof.
  exact (actionable_prompt_by_severity host fixOrIgnore _ eq_refl).
Defined.

Lemma prompt_at_most_one_command_witness :
  ∃ h', onPromptResolved twice (Some "Open") host = Ok (tt, h')
        ∧ (length (calls h') ≤ 1)%nat.
Proof.
  destruct (prompt_at_most_one_command host twice _ (Some "Open") eq_refl)
    as (h' & Hrun & [->|(a & _ & _ & Hcalls)]).
  - exists host. split; [exact Hrun|]. simpl. lia.
  - exists h'. split; [exact Hrun|]. rewrite Hcalls. simpl. lia.
Defined.

Lemma prompt_unmatched_selection_witness :
  Forall (λ a, title a ≠ "Later")
    [ {| title := "Fix"; command := "x.fix"; arguments := Some [JNumber 1] |};
      {| title := "Ignore"; command := "x.ignore"; arguments := None |} ]
  ∧ onPromptResolved fixOrIgnore (Some "Later") host = Ok (tt, host).
Proof.
  assert (Forall (λ a, title a ≠ "Later")
            [ {| title := "Fix"; command := "x.fix"; arguments := Some [JNumber 1] |};
              {| title := "Ignore"; command := "x.ignore"; arguments := None |} ]) as Hnone.
  { repeat constructor; simpl; discriminate. }
  split; [exact Hnone|].
  exact (prompt_unmatched_selection host fixOrIgnore _ "Later" eq_refl Hnone).
Defined.

Lemma prompt_button_runs_command_witness :
  "Open" ∈ ["Open"; "Open"]
  ∧ ∃ h' a, onPromptResolved twice (Some "Open") host = Ok (tt, h')
            ∧ title a = "Open" ∧ (length (calls h') = 1)%nat.
Proof.
  assert ("Open" ∈ ["Open"; "Open"]) as Hshown by apply list_elem_of_here.
  split; [exact Hshown|].
  destruct (prompt_button_runs_command host twice _ "Open" eq_refl Hshown)
    as (h' & a & Hrun & _ & Ha & Hcalls).
  exists h', a. split; [exact Hrun|]. split; [exact Ha|]. by rewrite Hcalls.
Defined.

Lemma telemetry_initialized_name_not_forwarded_witness :
  STARTUP_EVT ≠ SERVER_INITIALIZED_EVT
  ∧ match onTelemetry initialized host with
    | Ok (_, h') =>
        ∃ evt, calls h' = calls host ++
                 [Telemetry_sendTelemetry evt (seenProperties h' (properties initialized))]
               ∧ evt ≠ SERVER_INITIALIZED_EVT
    | Throw _ => name initialized = SERVER_INITIALIZED_EVT ∧ properties initialized = None
    end.
Proof.
  assert (STARTUP_EVT ≠ SERVER_INITIALIZED_EVT) as Hdistinct by discriminate.
  split; [exact Hdistinct|].
  exact (telemetry_initialized_name_not_forwarded host initialized Hdistinct).
Defined.

Lemma telemetry_initialized_again_witness :
  name initialized = SERVER_INITIALIZED_EVT
  ∧ ∃ h1 h2, onTelemetry initialized host = Ok (tt, h1)
             ∧ onTelemetry initialized h1 = Ok (tt, h2)
             ∧ ∀ l, objects h2 l = objects h1 l.
Proof.
  assert (name initialized = SERVER_INITIALIZED_EVT) as Hname by reflexivity.
  split; [exact Hname|].
  pose proof (onTelemetry_run host initialized) as Hfirst.
  destruct (telemetry_initialized_again host _ initialized Hname Hfirst)
    as (h2 & Hrun & Hobjects); [reflexivity|].
  eexists _, h2. split; [exact Hfirst|]. split; [exact Hrun | exact Hobjects].
Defined.


End OnScenarios.
